(** * Account-authentication core: the FastAPI routers of [src/api]

    A shallow embedding of [src/api/auth.py] (register, login, email
    confirmation, request and execute password reset), of
    [src/api/users.py] (avatar update) and of
    [src/services/upload_file.py], with the properties the specification
    states about them.

    The handlers are [async def] functions that thread a database session,
    the process-wide Redis cache and FastAPI's [BackgroundTasks] through the
    calls of their collaborators and leave by [return] or by [raise
    HTTPException].  They are embedded as computations in a state-and-
    exception monad over a [World]; every call of a collaborator also
    appends an [Event] to the world's trace, so that "before", "never" and
    "no operation on" can be stated about the calls a handler makes. *)

From Stdlib Require Import Ascii String.
From stdpp Require Import gmap strings list pretty.

Open Scope Z_scope.


(** ** Data model *)

(** The two static roles of a user. *)
Inductive UserRole : Type :=
| RoleUser
| RoleAdmin.

Global Instance UserRole_eq_dec : EqDecision UserRole.
Proof. solve_decision. Defined.

(** The durable user record, with the attributes the routers read:
    [user.id], [user.username], [user.email], [user.hashed_password],
    [user.is_verified], [user.role], and the avatar that
    [update_avatar_url] stores. *)
Record User : Type := mkUser {
  id : Z;
  username : string;
  email : string;
  hashed_password : string;
  avatar : option string;
  is_verified : bool;
  role : UserRole
}.

Global Instance User_eq_dec : EqDecision User.
Proof. solve_decision. Defined.

(** Request bodies: [UserCreate], [UserLogin], [RequestEmail],
    [ResetPassword], with the attributes the routers read. *)
Record UserCreate : Type := mkUserCreate {
  uc_username : string;
  uc_email : string;
  uc_password : string
}.

Record UserLogin : Type := mkUserLogin {
  ul_email : string;
  ul_password : string
}.

Record RequestEmail : Type := mkRequestEmail {
  re_email : string
}.

Record ResetPassword : Type := mkResetPassword {
  new_password : string
}.

(** [UserCacheModel(id=, username=, email=, is_verified=, role=)]: the
    projection of a user that login writes to the cache. *)
Record UserCacheModel : Type := mkUserCacheModel {
  c_id : Z;
  c_username : string;
  c_email : string;
  c_is_verified : bool;
  c_role : UserRole
}.

Global Instance UserCacheModel_eq_dec : EqDecision UserCacheModel.
Proof. solve_decision. Defined.

(** Modelled from the spec: the [User] response schema
    ([src/schemas/users.py] is not part of the sources), the "public
    user view": the record without its credential. *)
Record PublicUser : Type := mkPublicUser {
  pu_id : Z;
  pu_username : string;
  pu_email : string;
  pu_avatar : option string;
  pu_role : UserRole
}.

Definition public_view (u : User) : PublicUser :=
  mkPublicUser (id u) (username u) (email u) (avatar u) (role u).

(** The process-wide [redis_cache]: its connection ([redis_cache.redis]
    is falsy while there is none) and the entries it holds, each with the
    expiry it was set with. *)
Record RedisCache : Type := mkRedisCache {
  redis : bool;
  entries : gmap string (UserCacheModel * Z)
}.

(** A task handed to [background_tasks.add_task]. *)
Inductive Task : Type :=
| send_email (to_email to_username base_url : string)
| send_reset_password_email (to_email to_username base_url reset_token : string).

(** The calls a handler makes to its collaborators, in order. *)
Inductive Event : Type :=
| EvGetUserByEmail (e : option string)
| EvGetUserByUsername (u : string)
| EvCreateUser (u : User)
| EvConfirmedEmail (e : option string)
| EvResetPassword (user_id : Z)
| EvUpdateAvatarUrl (e : string) (url : string)
| EvGetPasswordHash
| EvVerifyPassword
| EvCreateAccessToken (sub : string)
| EvGetEmailFromToken (token : string)
| EvCacheSet (key : string)
| EvAddTask (t : Task)
| EvUpload (public_id : string).

Global Instance Task_eq_dec : EqDecision Task.
Proof. solve_decision. Defined.

Global Instance Event_eq_dec : EqDecision Event.
Proof. solve_decision. Defined.

(** What a handler runs against: the user table behind the session [db],
    the cache, the background tasks of the request, the clock, and the
    trace of collaborator calls. *)
Record World : Type := mkWorld {
  users : list User;
  cache : RedisCache;
  tasks : list Task;
  clock : Z;
  trace : list Event
}.

Definition set_users (f : list User → list User) (w : World) : World :=
  mkWorld (f (users w)) (cache w) (tasks w) (clock w) (trace w).
Definition set_cache (f : RedisCache → RedisCache) (w : World) : World :=
  mkWorld (users w) (f (cache w)) (tasks w) (clock w) (trace w).
Definition set_tasks (f : list Task → list Task) (w : World) : World :=
  mkWorld (users w) (cache w) (f (tasks w)) (clock w) (trace w).
Definition set_trace (f : list Event → list Event) (w : World) : World :=
  mkWorld (users w) (cache w) (tasks w) (clock w) (f (trace w)).

(** ** Exceptions and the handler monad *)

(** [HTTPException(status_code=, detail=, headers=)], and any other
    [Exception], which FastAPI answers with status 500. *)
Inductive Exn : Type :=
| HTTPException (status_code : Z) (detail : string) (headers : list (string * string))
| Exception (msg : string).

Inductive Outcome (A : Type) : Type :=
| Return (a : A)
| Raise (e : Exn).
Arguments Return {A} a.
Arguments Raise {A} e.

Definition M (A : Type) : Type := World → Outcome A * World.

Global Instance M_ret : MRet M := λ A a w, (Return a, w).
Global Instance M_bind : MBind M := λ A B f m w,
  match m w with
  | (Return a, w') => f a w'
  | (Raise e, w') => (Raise e, w')
  end.

Definition raise {A : Type} (e : Exn) : M A := λ w, (Raise e, w).

(** [try: m except Exception as e: h e]. *)
Definition try_except {A : Type} (m : M A) (h : Exn → M A) : M A := λ w,
  match m w with
  | (Return a, w') => (Return a, w')
  | (Raise e, w') => h e w'
  end.

Definition emit (ev : Event) : M unit := λ w, (Return tt, set_trace (λ t, t ++ [ev]) w).
Definition get_world : M World := λ w, (Return w, w).
Definition modify (f : World → World) : M unit := λ w, (Return tt, f w).

(** Status codes of [fastapi.status]. *)
Definition HTTP_200_OK : Z := 200.
Definition HTTP_201_CREATED : Z := 201.
Definition HTTP_400_BAD_REQUEST : Z := 400.
Definition HTTP_401_UNAUTHORIZED : Z := 401.
Definition HTTP_404_NOT_FOUND : Z := 404.
Definition HTTP_409_CONFLICT : Z := 409.

(** What a handler returns. *)
Inductive Body : Type :=
| Message (message : string)
| TokenBody (access_token token_type : string)
| UserBody (u : PublicUser).

(** The status of the response: the route's [status_code] (200 when the
    decorator names none) on [return], the exception's on [raise
    HTTPException], 500 for any other exception. *)
Definition status_of {A : Type} (route_status : Z) (o : Outcome A) : Z :=
  match o with
  | Return _ => route_status
  | Raise (HTTPException s _ _) => s
  | Raise (Exception _) => 500
  end.

Definition is_return {A : Type} (o : Outcome A) : bool :=
  match o with Return _ => true | Raise _ => false end.

(** ** Collaborators *)

(** [Hash] of [src/services/auth.py] (not part of the sources): the
    credential hasher, taken as given. *)
Record Hasher : Type := mkHasher {
  hash_get_password_hash : string → string;
  hash_verify_password : string → string → bool
}.

(** The token functions of [src/services/auth.py] (not part of the
    sources), with the interface the routers call them through:
    [create_access_token(data)] takes the claims and reads the clock,
    [get_email_from_token(token)] takes the serialized token alone and
    yields the email, or [None].  Neither takes a purpose. *)
Record TokenService : Type := mkTokenService {
  ts_create_access_token : gmap string string → Z → string;
  ts_get_email_from_token : string → Z → option string
}.

(** The [cloudinary] package: [cloudinary.uploader.upload] answers with a
    dictionary, of which [r.get("version")] is read, or raises;
    [CloudinaryImage(public_id).build_url(width=, height=, crop=, version=)]
    builds the URL. *)
Inductive UploadResult : Type :=
| Uploaded (version : option Z)
| UploadError (msg : string).

Record Cloudinary : Type := mkCloudinary {
  uploader_upload : string → string → UploadResult;
  build_url : string → Z → Z → string → option Z → string
}.

(** Python's truth value of an [Optional[str]]: [None] and the empty
    string are falsy. *)
Definition truthy (s : option string) : bool :=
  match s with
  | None => false
  | Some s => negb (bool_decide (s = ""))
  end.

(** [s.rstrip("/")] for a one-character argument [c]. *)
Fixpoint rstrip (c : ascii) (s : string) : string :=
  match s with
  | EmptyString => EmptyString
  | String a s' =>
      match rstrip c s' with
      | EmptyString => if bool_decide (a = c) then EmptyString else String a EmptyString
      | r => String a r
      end
  end.

(** *** The user repository

    Modelled from the spec: [UserService] of [src/services/users.py]
    (not part of the sources), the repository collaborator over the user
    table: lookups by the unique email and username, creation of an
    initially unverified record, and the three single-record updates. *)
Definition find_by_email (e : option string) (us : list User) : option User :=
  match e with
  | None => None
  | Some s => List.find (λ u, bool_decide (email u = s)) us
  end.

Definition find_by_username (n : string) (us : list User) : option User :=
  List.find (λ u, bool_decide (username u = n)) us.

Arguments find_by_email : simpl never.
Arguments find_by_username : simpl never.

Definition next_id (us : list User) : Z :=
  1 + foldr (λ u m, Z.max (id u) m) 0 us.

Definition new_user (user_data : UserCreate) (us : list User) : User :=
  mkUser (next_id us) (uc_username user_data) (uc_email user_data)
         (uc_password user_data) None false RoleUser.

Definition mark_verified (e : option string) (u : User) : User :=
  if bool_decide (Some (email u) = e)
  then mkUser (id u) (username u) (email u) (hashed_password u) (avatar u) true (role u)
  else u.

Definition with_password (user_id : Z) (h : string) (u : User) : User :=
  if bool_decide (id u = user_id)
  then mkUser (id u) (username u) (email u) h (avatar u) (is_verified u) (role u)
  else u.

Definition with_avatar (e : string) (url : string) (u : User) : User :=
  if bool_decide (email u = e)
  then mkUser (id u) (username u) (email u) (hashed_password u) (Some url) (is_verified u) (role u)
  else u.

Definition get_user_by_email (e : option string) : M (option User) :=
  emit (EvGetUserByEmail e);;
  w ← get_world;
  mret (find_by_email e (users w)).

Definition get_user_by_username (n : string) : M (option User) :=
  emit (EvGetUserByUsername n);;
  w ← get_world;
  mret (find_by_username n (users w)).

Definition create_user (user_data : UserCreate) : M User :=
  w ← get_world;
  let u := new_user user_data (users w) in
  emit (EvCreateUser u);;
  modify (set_users (λ us, us ++ [u]));;
  mret u.

Definition user_confirmed_email (e : option string) : M unit :=
  emit (EvConfirmedEmail e);;
  modify (set_users (fmap (mark_verified e))).

Definition user_reset_password (user_id : Z) (h : string) : M unit :=
  emit (EvResetPassword user_id);;
  modify (set_users (fmap (with_password user_id h))).

Definition update_avatar_url (e : string) (url : string) : M User :=
  emit (EvUpdateAvatarUrl e url);;
  modify (set_users (fmap (with_avatar e url)));;
  w ← get_world;
  match find_by_email (Some e) (users w) with
  | Some u => mret u
  | None => raise (Exception "NoneType")
  end.

(** *** The session cache and the background tasks

    Modelled from the spec: [redis_cache.set(key, value, expire=)] of
    [src/services/redis_cache.py] (not part of the sources): it always
    overwrites the entry of the key. *)
Definition cache_set (key : string) (value : UserCacheModel) (expire : Z) : M unit :=
  emit (EvCacheSet key);;
  modify (set_cache (λ c, mkRedisCache (redis c) (<[key := (value, expire)]> (entries c)))).

(** [background_tasks.add_task(f, args)]. *)
Definition add_task (t : Task) : M unit :=
  emit (EvAddTask t);;
  modify (set_tasks (λ ts, ts ++ [t])).

(** [request.base_url], the one attribute of the request the routers read. *)
Record Request : Type := mkRequest {
  base_url : string
}.

(** ** The routers *)

Section Routers.

Context (hs : Hasher) (ts : TokenService) (cld : Cloudinary).

(** [Hash().get_password_hash(p)] and [Hash().verify_password(p, h)]. *)
Definition get_password_hash (p : string) : M string :=
  emit EvGetPasswordHash;;
  mret (hash_get_password_hash hs p).

Definition verify_password (p h : string) : M bool :=
  emit EvVerifyPassword;;
  mret (hash_verify_password hs p h).

(** [create_access_token(data=...)] and [get_email_from_token(token)]. *)
Definition create_access_token (data : gmap string string) : M string :=
  emit (EvCreateAccessToken (default "" (data !! "sub")));;
  w ← get_world;
  mret (ts_create_access_token ts data (clock w)).

Definition get_email_from_token (token : string) : M (option string) :=
  emit (EvGetEmailFromToken token);;
  w ← get_world;
  mret (ts_get_email_from_token ts token (clock w)).

(** [src/api/auth.py], [get_user_or_404]. *)
Definition get_user_or_404 (e : string) : M User :=
  user ← get_user_by_email (Some e);
  match user with
  | None => raise (HTTPException HTTP_404_NOT_FOUND "User not found" [])
  | Some user => mret user
  end.

(** [POST /auth/register], [status_code=201]. *)
Definition register_user (user_data : UserCreate) (request : Request) : M Body :=
  by_email ← get_user_by_email (Some (uc_email user_data));
  if bool_decide (is_Some by_email)
  then raise (HTTPException HTTP_409_CONFLICT "A user with this email already exists." [])
  else
    by_username ← get_user_by_username (uc_username user_data);
    if bool_decide (is_Some by_username)
    then raise (HTTPException HTTP_409_CONFLICT "A user with this username already exists." [])
    else
      hashed ← get_password_hash (uc_password user_data);
      let user_data := mkUserCreate (uc_username user_data) (uc_email user_data) hashed in
      new_user ← create_user user_data;
      add_task (send_email (email new_user) (username new_user) (base_url request));;
      mret (UserBody (public_view new_user)).

(** [POST /auth/login]. *)
Definition login_user (body : UserLogin) : M Body :=
  user ← get_user_or_404 (ul_email body);
  if negb (is_verified user)
  then raise (HTTPException HTTP_401_UNAUTHORIZED "Email is not verified." [])
  else
    ok ← verify_password (ul_password body) (hashed_password user);
    if negb ok
    then raise (HTTPException HTTP_401_UNAUTHORIZED "Invalid email or password."
                  [("WWW-Authenticate", "Bearer")])
    else
      access_token ← create_access_token {[ "sub" := username user ]};
      let cached_user :=
        mkUserCacheModel (id user) (username user) (email user) (is_verified user) (role user) in
      w ← get_world;
      (if redis (cache w)
       then cache_set ("user:" +:+ username user) cached_user 3600
       else mret tt);;
      mret (TokenBody access_token "bearer").

(** [GET /auth/confirmed_email/{token}]. *)
Definition confirmed_email (token : string) : M Body :=
  e ← get_email_from_token token;
  user ← get_user_by_email e;
  match user with
  | None => raise (HTTPException HTTP_400_BAD_REQUEST "Verification error" [])
  | Some user =>
      if is_verified user
      then mret (Message "Your email is already verified.")
      else
        user_confirmed_email e;;
        mret (Message "Email successfully verified.")
  end.

(** [POST /auth/request_email]. *)
Definition request_email (body : RequestEmail) (request : Request) : M Body :=
  user ← get_user_or_404 (re_email body);
  if is_verified user
  then mret (Message "Your email is already verified.")
  else
    add_task (send_email (email user) (username user) (base_url request));;
    mret (Message "Check your email for verification instructions.").

(** [POST /auth/forgot-password]. *)
Definition forgot_password_request (body : RequestEmail) (request : Request) : M Body :=
  user ← get_user_or_404 (re_email body);
  if negb (is_verified user)
  then raise (HTTPException HTTP_400_BAD_REQUEST "Email is not verified" [])
  else
    try_except
      (reset_token ← create_access_token {[ "sub" := email user ]};
       add_task (send_reset_password_email (email user) (username user)
                   (rstrip "/"%char (base_url request)) reset_token);;
       mret (Message "Check your email for password reset instructions"))
      (λ _, raise (HTTPException 500 "Internal Server Error" [])).

(** [POST /auth/reset-password/{token}]. *)
Definition reset_password (token : string) (body : ResetPassword) : M Body :=
  e ← get_email_from_token token;
  if negb (truthy e)
  then raise (HTTPException HTTP_400_BAD_REQUEST "Invalid or expired token" [])
  else
    user ← get_user_by_email e;
    match user with
    | None => raise (HTTPException HTTP_404_NOT_FOUND "User not found" [])
    | Some user =>
        hashed ← get_password_hash (new_password body);
        user_reset_password (id user) hashed;;
        mret (Message "Password successfully changed")
    end.

(** [src/services/upload_file.py], [UploadFileService.upload_file]: the
    [except] clause logs and re-raises. *)
Definition upload_file (file : string) (name : string) : M string :=
  let public_id := "RestApp/" +:+ name in
  try_except
    (emit (EvUpload public_id);;
     match uploader_upload cld file public_id with
     | UploadError msg => raise (Exception msg)
     | Uploaded version => mret (build_url cld public_id 250 250 "fill" version)
     end)
    (λ e, raise e).

(** Modelled from the spec: [get_current_admin_user] of
    [src/services/auth.py] (not part of the sources), the authorization
    predicate over the two static roles: the authenticated user passes
    when its role is the administrator's, and the dependency raises
    otherwise. *)
Definition get_current_admin_user (current_user : User) : M User :=
  if bool_decide (role current_user = RoleAdmin)
  then mret current_user
  else raise (HTTPException 403 "Forbidden" []).

(** [PATCH /users/avatar]: FastAPI resolves
    [Depends(get_current_admin_user)] before the body runs;
    [current_user] is the caller that [get_current_user] authenticated. *)
Definition update_avatar_user (file : string) (current_user : User) : M Body :=
  user ← get_current_admin_user current_user;
  avatar_url ← upload_file file (username user);
  updated_user ← update_avatar_url (email user) avatar_url;
  mret (UserBody (public_view updated_user)).

End Routers.

(** ** Sample collaborators

    Instances of the three collaborators that are taken as given, to run
    the routers on concrete requests. *)

(** A stand-in for the salted hash: the plaintext under a fixed prefix. *)
Definition sample_hasher : Hasher :=
  mkHasher (λ p, "$hashed$" +:+ p) (λ p h, bool_decide (h = "$hashed$" +:+ p)).

Definition digit_of (a : ascii) : option N :=
  let n := N_of_ascii a in
  if ((48 <=? n) && (n <=? 57))%N then Some (n - 48)%N else None.

Fixpoint parse_digits (acc : N) (s : string) : option N :=
  match s with
  | EmptyString => Some acc
  | String a s' =>
      match digit_of a with
      | Some d => parse_digits (acc * 10 + d)%N s'
      | None => None
      end
  end.

Definition parse_N (s : string) : option N :=
  match s with
  | EmptyString => None
  | _ => parse_digits 0%N s
  end.

(** The text before and after the first occurrence of [c]. *)
Fixpoint split_once (c : ascii) (s : string) : option (string * string) :=
  match s with
  | EmptyString => None
  | String a s' =>
      if bool_decide (a = c) then Some (EmptyString, s')
      else match split_once c s' with
           | Some (l, r) => Some (String a l, r)
           | None => None
           end
  end.

(** A keyed checksum standing in for the signature. *)
Fixpoint checksum (key : N) (s : string) : N :=
  match s with
  | EmptyString => key
  | String a s' => checksum ((key * 131 + N_of_ascii a) mod 4294967291)%N s'
  end.

Definition sample_secret : N := 271828%N.
Definition sample_ttl : Z := 3600.

(** Modelled from the spec: the Token Service behind the two token
    functions ([src/services/auth.py] is not part of the sources), as far
    as the routers' calls reach it: a token serializes the claims
    [expiresAt] and [subject] with a signature under the process-wide
    secret; validation parses, verifies the signature and checks
    [now < expiresAt], and yields the subject claim, or [None].  The
    calls carry no purpose, so neither does the token. *)
Definition sample_sign (exp : N) (sub : string) : N :=
  checksum sample_secret (pretty exp +:+ "." +:+ sub).

Definition sample_issue (data : gmap string string) (now : Z) : string :=
  let sub := default "" (data !! "sub") in
  let exp := Z.to_N (now + sample_ttl) in
  pretty exp +:+ "." +:+ pretty (sample_sign exp sub) +:+ "." +:+ sub.

Definition sample_validate (token : string) (now : Z) : option string :=
  match split_once "."%char token with
  | None => None
  | Some (exp_s, rest) =>
      match split_once "."%char rest with
      | None => None
      | Some (sig_s, sub) =>
          match parse_N exp_s, parse_N sig_s with
          | Some exp, Some sig =>
              if bool_decide (sig = sample_sign exp sub) && bool_decide (now < Z.of_N exp)
              then Some sub
              else None
          | _, _ => None
          end
      end
  end.

Definition sample_tokens : TokenService := mkTokenService sample_issue sample_validate.

Definition sample_cloudinary : Cloudinary :=
  mkCloudinary
    (λ file public_id, if bool_decide (file = "") then UploadError "Empty file"
                       else Uploaded (Some 7))
    (λ public_id width height crop version,
       "https://res.cloudinary.com/c_" +:+ crop +:+ ",h_" +:+ pretty height +:+ ",w_"
       +:+ pretty width +:+ "/v" +:+ pretty (default 1 version) +:+ "/" +:+ public_id).

(** Two users: alice has confirmed her email, bob has not. *)
Definition alice : User :=
  mkUser 1 "alice" "alice@example.com" "$hashed$pw123" None true RoleUser.
Definition bob : User :=
  mkUser 2 "bob" "bob@example.com" "$hashed$hunter2" None false RoleUser.

Definition empty_world : World :=
  mkWorld [] (mkRedisCache true ∅) [] 1000 [].
Definition sample_world : World :=
  mkWorld [alice; bob] (mkRedisCache true ∅) [] 1000 [].
Definition sample_request : Request := mkRequest "http://testserver/".

(** The token that [forgot_password_request] mints for alice in
    [sample_world]. *)
Definition alice_reset_token : string :=
  ts_create_access_token sample_tokens {[ "sub" := "alice@example.com" ]} 1000.

(** mallory's username is spelled like alice's email; root is an
    administrator. *)
Definition mallory : User :=
  mkUser 3 "alice@example.com" "mallory@example.com" "$hashed$m" None true RoleUser.
Definition root : User :=
  mkUser 9 "root" "root@example.com" "$hashed$r" None true RoleAdmin.
Definition crowded_world : World :=
  mkWorld [alice; bob; mallory] (mkRedisCache true ∅) [] 1000 [].

(** The worlds of the scenario of the specification: alice registers,
    confirms her email with a valid token whose subject is her email, and
    logs in. *)
Definition after_register : World :=
  (register_user sample_hasher (mkUserCreate "alice" "alice@example.com" "pw123")
     sample_request empty_world).2.
Definition alice_verify_token : string :=
  ts_create_access_token sample_tokens {[ "sub" := "alice@example.com" ]} 1000.
Definition after_confirm : World :=
  (confirmed_email sample_tokens alice_verify_token after_register).2.
Definition after_login : World :=
  (login_user sample_hasher sample_tokens (mkUserLogin "alice@example.com" "pw123")
     after_confirm).2.

(** ** Vocabulary of the statements *)

(** The world after the calls [evs] were made and nothing else changed. *)
Definition log (evs : list Event) (w : World) : World :=
  set_trace (λ t, t ++ evs) w.

(** The durable and shared state of the two worlds is the same: the user
    table, the cache and the background tasks. *)
Definition same_state (w w' : World) : Prop :=
  users w' = users w ∧ cache w' = cache w ∧ tasks w' = tasks w.

(** The calls a handler made from [w] on. *)
Definition calls_since (w w' : World) : list Event :=
  drop (length (trace w)) (trace w').

Definition is_cache_event (ev : Event) : bool :=
  match ev with EvCacheSet _ => true | _ => false end.

(** The cached projection of a user. *)
Definition projection (u : User) : UserCacheModel :=
  mkUserCacheModel (id u) (username u) (email u) (is_verified u) (role u).

(** The world with another cache, and the world at another time. *)
Definition with_cache (c : RedisCache) (w : World) : World :=
  set_cache (λ _, c) w.
Definition at_clock (t : Z) (w : World) : World :=
  mkWorld (users w) (cache w) (tasks w) t (trace w).

(** The last character of a string, and [n] copies of a character. *)
Fixpoint last_char (s : string) : option ascii :=
  match s with
  | EmptyString => None
  | String a EmptyString => Some a
  | String _ s' => last_char s'
  end.

Fixpoint repeat_char (n : nat) (c : ascii) : string :=
  match n with
  | O => EmptyString
  | S n => String c (repeat_char n c)
  end.

(** The handler [h] reads nothing of the cache: run on [w] with any other
    cache, it gives the same outcome, the same user table and the same
    background tasks; and it leaves that cache as it was. *)
Definition reads_no_cache (h : M Body) (c : RedisCache) (w : World) : Prop :=
  (h (with_cache c w)).1 = (h w).1 ∧
  users (h (with_cache c w)).2 = users (h w).2 ∧
  tasks (h (with_cache c w)).2 = tasks (h w).2.
Definition ignores_cache (h : M Body) (c : RedisCache) (w : World) : Prop :=
  reads_no_cache h c w ∧ cache (h (with_cache c w)).2 = c.

(** A record with another password hash, and with another avatar. *)
Definition set_hashed_password (h : string) (u : User) : User :=
  mkUser (id u) (username u) (email u) h (avatar u) (is_verified u) (role u).
Definition set_avatar (url : string) (u : User) : User :=
  mkUser (id u) (username u) (email u) (hashed_password u) (Some url) (is_verified u) (role u).

(** * Properties *)

(** Unfolds the monad and the collaborator calls of a handler. *)
Ltac run_handler :=
  cbv [mbind M_bind mret M_ret raise try_except emit get_world modify
       get_user_or_404 get_user_by_email get_user_by_username create_user
       user_confirmed_email user_reset_password update_avatar_url cache_set add_task
       get_password_hash verify_password create_access_token get_email_from_token
       upload_file get_current_admin_user log negb];
  cbn [users cache tasks clock trace set_users set_cache set_tasks set_trace fst snd].

Ltac world_eq :=
  cbv [log set_users set_cache set_tasks set_trace];
  cbn [users cache tasks clock trace];
  rewrite <- ?app_assoc; simpl; try reflexivity.

Lemma sub_claim (s : string) :
  default "" (({[ "sub" := s ]} : gmap string string) !! "sub") = s.
Proof. by rewrite lookup_singleton_eq. Qed.

Lemma calls_since_trace (evs : list Event) (w w' : World) :
  trace w' = trace w ++ evs → calls_since w w' = evs.
Proof. unfold calls_since. intros ->. by rewrite drop_app_length. Qed.

Lemma calls_since_log (evs : list Event) (w : World) :
  calls_since w (log evs w) = evs.
Proof. by apply calls_since_trace. Qed.

(** Reduces the projections of a handler's result. *)
Ltac proj := cbv zeta; cbn [fst snd].

Lemma same_state_log (evs : list Event) (w : World) : same_state w (log evs w).
Proof. by split_and!. Qed.

Lemma find_by_email_fmap (f : User → User) (e : option string) (us : list User) :
  (∀ u, email (f u) = email u) →
  find_by_email e (f <$> us) = f <$> find_by_email e us.
Proof.
  intros Hf. destruct e as [s|]; [|done]. unfold find_by_email.
  induction us as [|u us IH]; [done|]. simpl.
  rewrite Hf. by destruct (bool_decide (email u = s)).
Qed.

Lemma find_by_email_Some (e : option string) (us : list User) (u : User) :
  find_by_email e us = Some u → e = Some (email u) ∧ u ∈ us.
Proof.
  destruct e as [s|]; [|done]. unfold find_by_email. intros Hfind.
  apply find_some in Hfind as [Hin Heq].
  apply bool_decide_eq_true in Heq. subst s.
  split; [done|]. by apply list_elem_of_In.
Qed.

Lemma mark_verified_email (e : option string) (u : User) :
  email (mark_verified e u) = email u.
Proof. unfold mark_verified. by destruct (bool_decide _). Qed.

Lemma with_password_email (user_id : Z) (h : string) (u : User) :
  email (with_password user_id h u) = email u.
Proof. unfold with_password. by destruct (bool_decide _). Qed.

Lemma with_avatar_email (e url : string) (u : User) :
  email (with_avatar e url u) = email u.
Proof. unfold with_avatar. by destruct (bool_decide _). Qed.

Section Properties.

Context (hs : Hasher) (ts : TokenService) (cld : Cloudinary).

(** What [login_user] computes, case by case. *)
Lemma login_user_run (body : UserLogin) (w : World) :
  login_user hs ts body w =
  let e := Some (ul_email body) in
  match find_by_email e (users w) with
  | None =>
      (Raise (HTTPException 404 "User not found" []), log [EvGetUserByEmail e] w)
  | Some user =>
      if negb (is_verified user)
      then (Raise (HTTPException 401 "Email is not verified." []),
            log [EvGetUserByEmail e] w)
      else if negb (hash_verify_password hs (ul_password body) (hashed_password user))
      then (Raise (HTTPException 401 "Invalid email or password."
                     [("WWW-Authenticate", "Bearer")]),
            log [EvGetUserByEmail e; EvVerifyPassword] w)
      else
        (Return (TokenBody (ts_create_access_token ts {[ "sub" := username user ]} (clock w))
                   "bearer"),
         if redis (cache w)
         then set_cache
                (λ c, mkRedisCache (redis c)
                        (<["user:" +:+ username user := (projection user, 3600)]> (entries c)))
                (log [EvGetUserByEmail e; EvVerifyPassword;
                      EvCreateAccessToken (username user);
                      EvCacheSet ("user:" +:+ username user)] w)
         else log [EvGetUserByEmail e; EvVerifyPassword;
                   EvCreateAccessToken (username user)] w)
  end.
Proof.
  unfold login_user, projection. run_handler.
  destruct (find_by_email _ _) as [user|]; [|by world_eq].
  destruct (is_verified user); run_handler; [|by world_eq].
  destruct (hash_verify_password _ _ _); run_handler; [|by world_eq].
  rewrite sub_claim.
  destruct (redis (cache w)); run_handler; by world_eq.
Qed.

(** What [register_user] computes, case by case. *)
Lemma register_user_run (user_data : UserCreate) (request : Request) (w : World) :
  register_user hs user_data request w =
  let e := Some (uc_email user_data) in
  let n := uc_username user_data in
  match find_by_email e (users w) with
  | Some _ =>
      (Raise (HTTPException 409 "A user with this email already exists." []),
       log [EvGetUserByEmail e] w)
  | None =>
      match find_by_username n (users w) with
      | Some _ =>
          (Raise (HTTPException 409 "A user with this username already exists." []),
           log [EvGetUserByEmail e; EvGetUserByUsername n] w)
      | None =>
          let hashed := hash_get_password_hash hs (uc_password user_data) in
          let u := new_user (mkUserCreate n (uc_email user_data) hashed) (users w) in
          let t := send_email (email u) (username u) (base_url request) in
          (Return (UserBody (public_view u)),
           set_tasks (λ ts, ts ++ [t])
             (set_users (λ us, us ++ [u])
                (log [EvGetUserByEmail e; EvGetUserByUsername n; EvGetPasswordHash;
                      EvCreateUser u; EvAddTask t] w)))
      end
  end.
Proof.
  unfold register_user. run_handler.
  destruct (find_by_email _ _) as [u|]; simpl; [by world_eq|].
  destruct (find_by_username _ _) as [u|]; simpl; by world_eq.
Qed.

(** What [confirmed_email] computes, case by case. *)
Lemma confirmed_email_run (token : string) (w : World) :
  confirmed_email ts token w =
  let e := ts_get_email_from_token ts token (clock w) in
  match find_by_email e (users w) with
  | None =>
      (Raise (HTTPException 400 "Verification error" []),
       log [EvGetEmailFromToken token; EvGetUserByEmail e] w)
  | Some user =>
      if is_verified user
      then (Return (Message "Your email is already verified."),
            log [EvGetEmailFromToken token; EvGetUserByEmail e] w)
      else (Return (Message "Email successfully verified."),
            set_users (fmap (mark_verified e))
              (log [EvGetEmailFromToken token; EvGetUserByEmail e; EvConfirmedEmail e] w))
  end.
Proof.
  unfold confirmed_email. run_handler.
  destruct (find_by_email _ _) as [user|]; [|by world_eq].
  destruct (is_verified user); run_handler; by world_eq.
Qed.

(** What [forgot_password_request] computes, case by case. *)
Lemma forgot_password_request_run (body : RequestEmail) (request : Request) (w : World) :
  forgot_password_request ts body request w =
  let e := Some (re_email body) in
  match find_by_email e (users w) with
  | None =>
      (Raise (HTTPException 404 "User not found" []), log [EvGetUserByEmail e] w)
  | Some user =>
      if is_verified user
      then
        let reset_token := ts_create_access_token ts {[ "sub" := email user ]} (clock w) in
        let t := send_reset_password_email (email user) (username user)
                   (rstrip "/"%char (base_url request)) reset_token in
        (Return (Message "Check your email for password reset instructions"),
         set_tasks (λ ts, ts ++ [t])
           (log [EvGetUserByEmail e; EvCreateAccessToken (email user); EvAddTask t] w))
      else (Raise (HTTPException 400 "Email is not verified" []),
            log [EvGetUserByEmail e] w)
  end.
Proof.
  unfold forgot_password_request. run_handler.
  destruct (find_by_email _ _) as [user|]; [|by world_eq].
  destruct (is_verified user); run_handler; [|by world_eq].
  rewrite sub_claim. by world_eq.
Qed.

(** What [reset_password] computes, case by case. *)
Lemma reset_password_run (token : string) (body : ResetPassword) (w : World) :
  reset_password hs ts token body w =
  let e := ts_get_email_from_token ts token (clock w) in
  if truthy e
  then
    match find_by_email e (users w) with
    | None =>
        (Raise (HTTPException 404 "User not found" []),
         log [EvGetEmailFromToken token; EvGetUserByEmail e] w)
    | Some user =>
        (Return (Message "Password successfully changed"),
         set_users (fmap (with_password (id user)
                            (hash_get_password_hash hs (new_password body))))
           (log [EvGetEmailFromToken token; EvGetUserByEmail e; EvGetPasswordHash;
                 EvResetPassword (id user)] w))
    end
  else (Raise (HTTPException 400 "Invalid or expired token" []),
        log [EvGetEmailFromToken token] w).
Proof.
  unfold reset_password. run_handler.
  destruct (truthy _); run_handler; [|by world_eq].
  destruct (find_by_email _ _) as [user|]; by world_eq.
Qed.

(** What [update_avatar_user] computes for a caller who is not an
    administrator, and for one who is. *)
Lemma update_avatar_user_run (file : string) (current_user : User) (w : World) :
  update_avatar_user cld file current_user w =
  if bool_decide (role current_user = RoleAdmin)
  then
    let public_id := "RestApp/" +:+ username current_user in
    match uploader_upload cld file public_id with
    | UploadError msg => (Raise (Exception msg), log [EvUpload public_id] w)
    | Uploaded version =>
        let url := build_url cld public_id 250 250 "fill" version in
        let w' := set_users (fmap (with_avatar (email current_user) url))
                    (log [EvUpload public_id; EvUpdateAvatarUrl (email current_user) url] w) in
        match find_by_email (Some (email current_user)) (users w') with
        | Some u => (Return (UserBody (public_view u)), w')
        | None => (Raise (Exception "NoneType"), w')
        end
    end
  else (Raise (HTTPException 403 "Forbidden" []), w).
Proof.
  unfold update_avatar_user. run_handler.
  destruct (bool_decide _); run_handler; [|done].
  destruct (uploader_upload _ _ _) as [version|msg]; run_handler; [|by world_eq].
  destruct (find_by_email _ _) as [u|]; by world_eq.
Qed.

(** ** Tokens and their purposes *)

(** The token that login mints for a user and the token that a password
    reset request mints for a user are built by the same call, from the
    [sub] claim alone: they coincide as soon as the username of the one
    is spelled like the email of the other. *)
Lemma login_and_reset_tokens_coincide (body : UserLogin) (rbody : RequestEmail)
    (request : Request) (u v : User) (w : World) :
  find_by_email (Some (ul_email body)) (users w) = Some u →
  is_verified u = true →
  hash_verify_password hs (ul_password body) (hashed_password u) = true →
  find_by_email (Some (re_email rbody)) (users w) = Some v →
  is_verified v = true →
  username u = email v →
  ∃ token,
    (login_user hs ts body w).1 = Return (TokenBody token "bearer") ∧
    tasks (forgot_password_request ts rbody request w).2 =
      tasks w ++ [send_reset_password_email (email v) (username v)
                    (rstrip "/"%char (base_url request)) token].
Proof.
  intros Hu Hvu Hpw Hv Hvv Heq.
  exists (ts_create_access_token ts {[ "sub" := email v ]} (clock w)).
  rewrite login_user_run, forgot_password_request_run. simpl.
  rewrite Hu, Hv, Hvu, Hvv, Hpw, Heq. simpl. done.
Qed.

(** C1 (as amended): a token carries no purpose that the consuming
    operation checks.  Password reset and email confirmation both read
    the token through the same [get_email_from_token(token)] call, with no
    expected purpose, so every token that [reset_password] accepts
    (status 200) is accepted by [confirmed_email] as well (status 200). *)
Theorem reset_token_accepted_by_confirmed_email (token : string) (body : ResetPassword)
    (w : World) :
  status_of HTTP_200_OK (reset_password hs ts token body w).1 = 200 →
  status_of HTTP_200_OK (confirmed_email ts token w).1 = 200.
Proof.
  rewrite reset_password_run, confirmed_email_run. simpl.
  destruct (truthy _); [|done].
  destruct (find_by_email _ _) as [user|]; [|done].
  intros _. by destruct (is_verified user).
Qed.

(** ** Login *)

(** C2 (as amended): login answers 200 with [{access_token, token_type}],
    or 404 when no user has the email, or 401 when the account is not
    verified or the password does not verify; the handler raises no
    other status. *)
Theorem login_user_statuses (body : UserLogin) (w : World) :
  let o := (login_user hs ts body w).1 in
  let found := find_by_email (Some (ul_email body)) (users w) in
  (found = None → status_of HTTP_200_OK o = 404) ∧
  (∀ u, found = Some u →
        is_verified u = false ∨
        hash_verify_password hs (ul_password body) (hashed_password u) = false →
        status_of HTTP_200_OK o = 401) ∧
  (∀ u, found = Some u →
        is_verified u = true →
        hash_verify_password hs (ul_password body) (hashed_password u) = true →
        status_of HTTP_200_OK o = 200 ∧
        ∃ access_token, o = Return (TokenBody access_token "bearer")) ∧
  (status_of HTTP_200_OK o = 200 ∨ status_of HTTP_200_OK o = 401 ∨
   status_of HTTP_200_OK o = 404).
Proof.
  rewrite login_user_run. simpl.
  destruct (find_by_email _ _) as [user|]; [|by split_and!; auto].
  destruct (is_verified user) eqn:Hv; simpl.
  - destruct (hash_verify_password _ _ _) eqn:Hpw; simpl.
    + split_and!; [done| |by eauto|by auto].
      intros u [= <-] [?|?]; congruence.
    + split_and!; [done|done| |by auto].
      intros u [= <-]; congruence.
  - split_and!; [done|done| |by auto].
    intros u [= <-]; congruence.
Qed.

(** C3: the checks of login run in a fixed order.  The lookup by email
    comes first and an unknown email is rejected after it alone; then an
    unverified account is rejected, before the password is compared
    (the hasher is not called); then a wrong password is rejected, after
    the hasher was called and before any token is minted; only when the
    three checks pass is the token minted, then the cache populated, and
    the token returned. *)
Theorem login_user_order (body : UserLogin) (w : World) :
  let r := login_user hs ts body w in
  let e := Some (ul_email body) in
  let found := find_by_email e (users w) in
  (found = None →
     r.1 = Raise (HTTPException 404 "User not found" []) ∧
     calls_since w r.2 = [EvGetUserByEmail e] ∧ same_state w r.2) ∧
  (∀ u, found = Some u → is_verified u = false →
     r.1 = Raise (HTTPException 401 "Email is not verified." []) ∧
     calls_since w r.2 = [EvGetUserByEmail e] ∧ same_state w r.2) ∧
  (∀ u, found = Some u → is_verified u = true →
     hash_verify_password hs (ul_password body) (hashed_password u) = false →
     r.1 = Raise (HTTPException 401 "Invalid email or password."
                    [("WWW-Authenticate", "Bearer")]) ∧
     calls_since w r.2 = [EvGetUserByEmail e; EvVerifyPassword] ∧ same_state w r.2) ∧
  (∀ u, found = Some u → is_verified u = true →
     hash_verify_password hs (ul_password body) (hashed_password u) = true →
     r.1 = Return (TokenBody (ts_create_access_token ts {[ "sub" := username u ]} (clock w))
                     "bearer") ∧
     calls_since w r.2 =
       [EvGetUserByEmail e; EvVerifyPassword; EvCreateAccessToken (username u)] ++
       (if redis (cache w) then [EvCacheSet ("user:" +:+ username u)] else [])).
Proof.
  rewrite login_user_run. simpl.
  destruct (find_by_email _ _) as [user|]; simpl.
  2: { split_and!; try done. intros _.
       by rewrite calls_since_log; split_and!. }
  destruct (is_verified user) eqn:Hv; simpl.
  - destruct (hash_verify_password _ _ _) eqn:Hpw; simpl.
    + split_and!; try done; try (intros u [= <-]; congruence).
      intros u [= <-] _ _. split; [done|].
      destruct (redis (cache w)); simpl.
      * apply (calls_since_log [_; _; _; _]).
      * apply calls_since_log.
    + split_and!; try done; try (intros u [= <-]; congruence).
      intros u [= <-] _ _. by rewrite calls_since_log; split_and!.
  - split_and!; try done; try (intros u [= <-]; congruence).
    intros u [= <-] _. by rewrite calls_since_log; split_and!.
Qed.

(** C8: a successful login writes the projection [{id, username, email,
    is_verified, role}] of the user to the cache, under the key made of
    the user's username (in the [user:] namespace), with an expiry of 3600
    seconds; while [redis_cache.redis] is unset the write is skipped, the
    cache is not called, and the login returns the access token all the
    same. *)
Theorem login_user_populates_cache (body : UserLogin) (w : World) (u : User) :
  find_by_email (Some (ul_email body)) (users w) = Some u →
  is_verified u = true →
  hash_verify_password hs (ul_password body) (hashed_password u) = true →
  let r := login_user hs ts body w in
  let key := "user:" +:+ username u in
  r.1 = Return (TokenBody (ts_create_access_token ts {[ "sub" := username u ]} (clock w))
                  "bearer") ∧
  (redis (cache w) = true →
     entries (cache r.2) !! key =
       Some (mkUserCacheModel (id u) (username u) (email u) (is_verified u) (role u), 3600) ∧
     (∀ k, k ≠ key → entries (cache r.2) !! k = entries (cache w) !! k) ∧
     users r.2 = users w ∧ tasks r.2 = tasks w) ∧
  (redis (cache w) = false →
     same_state w r.2 ∧
     Forall (λ ev, is_cache_event ev = false) (calls_since w r.2)).
Proof.
  intros Hu Hv Hpw. rewrite login_user_run. proj.
  rewrite Hu, Hv, Hpw. cbn [negb]. proj.
  split_and!; [done| |].
  - intros ->. cbn. split_and!; [|intros k Hk|done|done].
    + rewrite lookup_insert_eq. unfold projection. by rewrite Hv.
    + by rewrite lookup_insert_ne.
  - intros ->. split; [apply same_state_log|].
    rewrite calls_since_log. by repeat constructor.
Qed.

(** ** Email confirmation *)

(** C5: email confirmation is idempotent.  For an already verified user
    it succeeds and changes nothing; with a token that yields no email,
    or an email that resolves to no user, it fails with status 400 and
    changes nothing; for a resolved user who is not yet verified it sets
    the verified flag, and confirming again then changes nothing.  The
    user table changes in that last case only. *)
Theorem confirmed_email_idempotent (token : string) (w : World) :
  let r := confirmed_email ts token w in
  let e := ts_get_email_from_token ts token (clock w) in
  let found := find_by_email e (users w) in
  (∀ u, found = Some u → is_verified u = true →
     r.1 = Return (Message "Your email is already verified.") ∧ same_state w r.2) ∧
  (e = None ∨ found = None →
     status_of HTTP_200_OK r.1 = 400 ∧ same_state w r.2) ∧
  (∀ u, found = Some u → is_verified u = false →
     r.1 = Return (Message "Email successfully verified.") ∧
     users r.2 = mark_verified e <$> users w ∧
     cache r.2 = cache w ∧ tasks r.2 = tasks w ∧
     find_by_email e (users r.2) =
       Some (mkUser (id u) (username u) (email u) (hashed_password u) (avatar u) true (role u)) ∧
     let r' := confirmed_email ts token r.2 in
     r'.1 = Return (Message "Your email is already verified.") ∧ same_state r.2 r'.2) ∧
  (users r.2 ≠ users w → ∃ u, found = Some u ∧ is_verified u = false).
Proof.
  proj.
  assert (Hfound : ∀ u, find_by_email (ts_get_email_from_token ts token (clock w)) (users w)
                        = Some u →
                   find_by_email (ts_get_email_from_token ts token (clock w))
                     (mark_verified (ts_get_email_from_token ts token (clock w)) <$> users w)
                   = Some (mkUser (id u) (username u) (email u) (hashed_password u)
                             (avatar u) true (role u))).
  { intros u Hu. rewrite find_by_email_fmap by apply mark_verified_email.
    rewrite Hu. cbn. apply find_by_email_Some in Hu as [-> _].
    unfold mark_verified. by rewrite bool_decide_true. }
  rewrite confirmed_email_run. proj.
  destruct (find_by_email _ _) as [user|] eqn:Hu.
  - destruct (is_verified user) eqn:Hv; proj.
    + split_and!.
      * intros u [= <-] _. split; [done|apply same_state_log].
      * intros [He|?]; [|done]. by rewrite He in Hu.
      * intros u [= <-]; congruence.
      * by intros [].
    + split_and!.
      * intros u [= <-]; congruence.
      * intros [He|?]; [|done]. by rewrite He in Hu.
      * intros u [= <-] _.
        split_and!; try done; try (by apply Hfound);
          rewrite confirmed_email_run; proj; cbn [users clock set_users log set_trace];
          rewrite (Hfound _ eq_refl); cbn [is_verified]; proj;
          [done|apply same_state_log].
      * intros _. by exists user.
  - by split_and!.
Qed.

(** ** Password reset *)

(** C6: a password reset request for an account that is not verified is
    rejected with status 400 after the lookup alone: no token is minted
    and no email is scheduled.  For a verified account a token is minted
    whose [sub] claim is the user's email, the delivery email carrying it
    is handed to the background tasks, and the answer is 200. *)
Theorem forgot_password_request_gate (body : RequestEmail) (request : Request) (w : World) :
  let r := forgot_password_request ts body request w in
  let e := Some (re_email body) in
  let found := find_by_email e (users w) in
  (∀ u, found = Some u → is_verified u = false →
     status_of HTTP_200_OK r.1 = 400 ∧
     calls_since w r.2 = [EvGetUserByEmail e] ∧ same_state w r.2) ∧
  (∀ u, found = Some u → is_verified u = true →
     let reset_token := ts_create_access_token ts {[ "sub" := email u ]} (clock w) in
     let t := send_reset_password_email (email u) (username u)
                (rstrip "/"%char (base_url request)) reset_token in
     status_of HTTP_200_OK r.1 = 200 ∧
     r.1 = Return (Message "Check your email for password reset instructions") ∧
     calls_since w r.2 = [EvGetUserByEmail e; EvCreateAccessToken (email u); EvAddTask t] ∧
     tasks r.2 = tasks w ++ [t] ∧ users r.2 = users w ∧ cache r.2 = cache w ∧
     email u = re_email body).
Proof.
  proj. rewrite forgot_password_request_run. proj.
  destruct (find_by_email _ _) as [user|] eqn:Hu; [|done].
  destruct (is_verified user) eqn:Hv; proj.
  - split; [intros u [= <-]; congruence|].
    intros u [= <-] _. split_and!; try done.
    + by apply calls_since_trace.
    + apply find_by_email_Some in Hu as [[= ->] _]. done.
  - split; [|intros u [= <-]; congruence].
    intros u [= <-] _. split_and!; [done|apply calls_since_log|apply same_state_log].
Qed.

(** C4: executing a password reset looks the subject up by the email
    claim of the token, and by nothing else.  It fails with status 400
    when the token yields no email (invalid or expired), with status 404
    when no user has the email of the claim, and otherwise hashes the new
    password, stores the hash in the record of that user, and answers
    200. *)
Theorem reset_password_outcomes (token : string) (body : ResetPassword) (w : World) :
  let r := reset_password hs ts token body w in
  let e := ts_get_email_from_token ts token (clock w) in
  let hashed := hash_get_password_hash hs (new_password body) in
  (truthy e = false →
     status_of HTTP_200_OK r.1 = 400 ∧ same_state w r.2 ∧
     calls_since w r.2 = [EvGetEmailFromToken token]) ∧
  (truthy e = true → find_by_email e (users w) = None →
     status_of HTTP_200_OK r.1 = 404 ∧ same_state w r.2 ∧
     calls_since w r.2 = [EvGetEmailFromToken token; EvGetUserByEmail e]) ∧
  (∀ u, truthy e = true → find_by_email e (users w) = Some u →
     status_of HTTP_200_OK r.1 = 200 ∧
     r.1 = Return (Message "Password successfully changed") ∧
     calls_since w r.2 =
       [EvGetEmailFromToken token; EvGetUserByEmail e; EvGetPasswordHash;
        EvResetPassword (id u)] ∧
     users r.2 = with_password (id u) hashed <$> users w ∧
     find_by_email e (users r.2) =
       Some (mkUser (id u) (username u) (email u) hashed (avatar u) (is_verified u) (role u))).
Proof.
  proj. rewrite reset_password_run. proj.
  destruct (truthy _) eqn:He; proj.
  - destruct (find_by_email _ _) as [user|] eqn:Hu; proj.
    + split_and!; try done. intros u _ [= <-]. split_and!; try done.
      * by apply calls_since_trace.
      * cbn [users set_users log set_trace].
        rewrite find_by_email_fmap by apply with_password_email.
        rewrite Hu. cbn. unfold with_password. by rewrite bool_decide_true.
    + split_and!; try done. intros _ _.
      split_and!; [done|apply same_state_log|apply calls_since_log].
  - split_and!; try done. intros _.
    split_and!; [done|apply same_state_log|apply calls_since_log].
Qed.

(** C9: executing a password reset performs no operation on the session
    cache: whatever the token and the outcome, the cache is left as it
    was, the cached projection of the subject included, and the handler
    makes no call to the cache. *)
Theorem reset_password_leaves_cache (token : string) (body : ResetPassword) (w : World) :
  let r := reset_password hs ts token body w in
  cache r.2 = cache w ∧
  (∀ key, entries (cache r.2) !! key = entries (cache w) !! key) ∧
  Forall (λ ev, is_cache_event ev = false) (calls_since w r.2).
Proof.
  proj. rewrite reset_password_run. proj.
  destruct (truthy _); proj.
  - destruct (find_by_email _ _) as [user|]; proj.
    + split_and!; try done.
      rewrite (calls_since_trace [_; _; _; _]) by done. by repeat constructor.
    + split_and!; try done. rewrite calls_since_log. by repeat constructor.
  - split_and!; try done. rewrite calls_since_log. by repeat constructor.
Qed.

(** ** Registration *)

(** C7: a registration whose email or username already belongs to a user
    is rejected with status 409; no record is created and no email is
    scheduled.  When both are free the password is hashed, a record that
    is not verified is created with the hash, the verification email is
    handed to the background tasks, and the answer is 201 with the public
    view of the new user. *)
Theorem register_user_outcomes (user_data : UserCreate) (request : Request) (w : World) :
  let r := register_user hs user_data request w in
  let by_email := find_by_email (Some (uc_email user_data)) (users w) in
  let by_username := find_by_username (uc_username user_data) (users w) in
  (is_Some by_email ∨ is_Some by_username →
     status_of HTTP_201_CREATED r.1 = 409 ∧ same_state w r.2) ∧
  (by_email = None → by_username = None →
     let hashed := hash_get_password_hash hs (uc_password user_data) in
     let u := mkUser (next_id (users w)) (uc_username user_data) (uc_email user_data)
                hashed None false RoleUser in
     status_of HTTP_201_CREATED r.1 = 201 ∧
     r.1 = Return (UserBody (public_view u)) ∧
     users r.2 = users w ++ [u] ∧
     tasks r.2 =
       tasks w ++ [send_email (uc_email user_data) (uc_username user_data) (base_url request)] ∧
     cache r.2 = cache w).
Proof.
  proj. rewrite register_user_run. proj.
  destruct (find_by_email _ _) as [u|] eqn:Hu; proj.
  - split; [|done]. intros _. split; [done|apply same_state_log].
  - destruct (find_by_username _ _) as [u|] eqn:Hn; proj.
    + split; [|done]. intros _. split; [done|apply same_state_log].
    + split; [|done]. intros [[? [=]]|[? [=]]].
Qed.

(** ** Avatar update *)

(** C10: the avatar update requires the administrator role.  A caller
    whose role is not the administrator's is rejected by the dependency
    before the body runs: nothing is uploaded and no record is touched.
    Whatever the caller, the records of the other users (those with
    another email) are left as they were. *)
Theorem update_avatar_user_requires_admin (file : string) (current_user : User) (w : World) :
  let r := update_avatar_user cld file current_user w in
  (role current_user ≠ RoleAdmin → is_return r.1 = false ∧ r.2 = w) ∧
  (∀ i u, users w !! i = Some u → email u ≠ email current_user →
          users r.2 !! i = Some u).
Proof.
  proj. rewrite update_avatar_user_run. proj.
  destruct (bool_decide _) eqn:Hrole; proj.
  - apply bool_decide_eq_true in Hrole. split; [done|].
    intros i u Hi Hne.
    destruct (uploader_upload _ _ _) as [version|msg]; proj; [|done].
    assert (Hrec : (with_avatar (email current_user)
                      (build_url cld ("RestApp/" +:+ username current_user) 250 250 "fill"
                         version) <$> users w) !! i = Some u).
    { rewrite list_lookup_fmap, Hi. cbn. unfold with_avatar.
      by rewrite bool_decide_false. }
    cbn [users set_users log set_trace].
    by destruct (find_by_email _ _).
  - by split.
Qed.

End Properties.

(** * Further properties of the routers *)

(** [s.rstrip(c)] removes a run of copies of [c] from the end of [s], and
    the whole of it. *)
Lemma rstrip_spec (c : ascii) (s : string) :
  last_char (rstrip c s) ≠ Some c ∧ ∃ n, s = rstrip c s +:+ repeat_char n c.
Proof.
  induction s as [|a s [Hlast [n Hn]]]; simpl.
  - split; [done|]. by exists 0%nat.
  - destruct (rstrip c s) as [|b r] eqn:Hr.
    + simpl in Hn. subst s. case_bool_decide as Hac.
      * subst a. split; [done|]. by exists (S n).
      * split; [simpl; congruence|]. by exists n.
    + split; [exact Hlast|]. exists n. simpl. by rewrite Hn at 1.
Qed.

Section MoreProperties.

Context (hs : Hasher) (ts : TokenService) (cld : Cloudinary).

(** What [request_email] computes, case by case. *)
Lemma request_email_run (body : RequestEmail) (request : Request) (w : World) :
  request_email body request w =
  let e := Some (re_email body) in
  match find_by_email e (users w) with
  | None =>
      (Raise (HTTPException 404 "User not found" []), log [EvGetUserByEmail e] w)
  | Some user =>
      if is_verified user
      then (Return (Message "Your email is already verified."),
            log [EvGetUserByEmail e] w)
      else
        let t := send_email (email user) (username user) (base_url request) in
        (Return (Message "Check your email for verification instructions."),
         set_tasks (λ ts, ts ++ [t]) (log [EvGetUserByEmail e; EvAddTask t] w))
  end.
Proof.
  unfold request_email. run_handler.
  destruct (find_by_email _ _) as [user|]; [|by world_eq].
  destruct (is_verified user); run_handler; by world_eq.
Qed.

(** X1: resending the verification link.  An unknown email is answered
    with 404 and a verified account with a message, and neither changes
    anything.  For an account that is not verified the verification
    email is handed to the background tasks with the base URL of the
    request as it is; the handler mints no token, changes neither the
    user table nor the cache, and a repeated request schedules the same
    email once more. *)
Theorem request_email_outcomes (body : RequestEmail) (request : Request) (w : World) :
  let r := request_email body request w in
  let e := Some (re_email body) in
  let found := find_by_email e (users w) in
  (found = None →
     r.1 = Raise (HTTPException 404 "User not found" []) ∧ same_state w r.2) ∧
  (∀ u, found = Some u → is_verified u = true →
     r.1 = Return (Message "Your email is already verified.") ∧ same_state w r.2) ∧
  (∀ u, found = Some u → is_verified u = false →
     let t := send_email (re_email body) (username u) (base_url request) in
     r.1 = Return (Message "Check your email for verification instructions.") ∧
     calls_since w r.2 = [EvGetUserByEmail e; EvAddTask t] ∧
     tasks r.2 = tasks w ++ [t] ∧ users r.2 = users w ∧ cache r.2 = cache w ∧
     tasks (request_email body request r.2).2 = tasks w ++ [t; t]).
Proof.
  proj. rewrite request_email_run. proj.
  destruct (find_by_email _ _) as [user|] eqn:Hu; proj.
  2: by split_and!.
  pose proof (find_by_email_Some _ _ _ Hu) as [[= Hemail] _].
  rewrite Hemail in Hu |- *.
  destruct (is_verified user) eqn:Hv; proj.
  - split_and!; try done; try (intros u [= <-]; congruence).
  - split_and!; try done; try (intros u [= <-]; congruence).
    intros u [= <-] _. split_and!; try done.
    + by apply calls_since_trace.
    + rewrite request_email_run. proj. cbn [users set_tasks log set_trace].
      rewrite Hemail, Hu, Hv. cbn [tasks set_tasks log set_trace snd].
      by rewrite <- app_assoc.
Qed.

(** X2: a password reset request for an email that no user has is
    answered with 404 after the lookup alone.  Whatever the request, the
    handler changes neither the user table nor the cache, and it hands a
    task to the background tasks only when it answers 200. *)
Theorem forgot_password_request_frame (body : RequestEmail) (request : Request) (w : World) :
  let r := forgot_password_request ts body request w in
  let e := Some (re_email body) in
  (find_by_email e (users w) = None →
     r.1 = Raise (HTTPException 404 "User not found" []) ∧
     calls_since w r.2 = [EvGetUserByEmail e] ∧ same_state w r.2) ∧
  users r.2 = users w ∧ cache r.2 = cache w ∧
  (status_of HTTP_200_OK r.1 ≠ 200 → tasks r.2 = tasks w) ∧
  (status_of HTTP_200_OK r.1 = 200 → ∃ t, tasks r.2 = tasks w ++ [t]).
Proof.
  proj. rewrite forgot_password_request_run. proj.
  destruct (find_by_email _ _) as [user|]; proj.
  - destruct (is_verified user); proj; split_and!; try done.
    intros _. by eexists.
  - split_and!; try done. intros _. split_and!; [done|apply calls_since_log|done].
Qed.

(** X3: the conflict checks of registration run in order.  When the
    email is taken the request is rejected with the message about the
    email after the email lookup alone, whether or not the username is
    taken too; the message about the username is given only when the
    email is free.  A rejected registration changes nothing and does not
    reach the hasher. *)
Theorem register_user_conflict_order (user_data : UserCreate) (request : Request) (w : World) :
  let r := register_user hs user_data request w in
  let e := Some (uc_email user_data) in
  let n := uc_username user_data in
  (is_Some (find_by_email e (users w)) →
     r.1 = Raise (HTTPException 409 "A user with this email already exists." []) ∧
     calls_since w r.2 = [EvGetUserByEmail e]) ∧
  (find_by_email e (users w) = None → is_Some (find_by_username n (users w)) →
     r.1 = Raise (HTTPException 409 "A user with this username already exists." []) ∧
     calls_since w r.2 = [EvGetUserByEmail e; EvGetUserByUsername n]) ∧
  (is_return r.1 = false →
     same_state w r.2 ∧ EvGetPasswordHash ∉ calls_since w r.2).
Proof.
  proj. rewrite register_user_run. proj.
  destruct (find_by_email _ _) as [u|]; proj.
  - split_and!; try done.
    + intros _. split; [done|apply calls_since_log].
    + intros _. split; [apply same_state_log|].
      rewrite calls_since_log, list_elem_of_In. simpl. intuition discriminate.
  - destruct (find_by_username _ _) as [u|]; proj.
    + split_and!; try done.
      * intros _ _. split; [done|apply calls_since_log].
      * intros _. split; [apply same_state_log|].
        rewrite calls_since_log, list_elem_of_In. simpl. intuition discriminate.
    + split_and!; try done.
Qed.

(** X4: the base URL that the password reset email is given is the base
    URL of the request without its trailing slashes: it does not end in
    a slash, and the request's base URL is that text followed by slashes
    only. *)
Theorem forgot_password_strips_base_url (body : RequestEmail) (request : Request)
    (w : World) (u : User) :
  find_by_email (Some (re_email body)) (users w) = Some u →
  is_verified u = true →
  ∃ b token n,
    tasks (forgot_password_request ts body request w).2 =
      tasks w ++ [send_reset_password_email (email u) (username u) b token] ∧
    base_url request = b +:+ repeat_char n "/"%char ∧
    last_char b ≠ Some "/"%char.
Proof.
  intros Hu Hv. rewrite forgot_password_request_run. proj. rewrite Hu, Hv. proj.
  destruct (rstrip_spec "/"%char (base_url request)) as [Hlast [n Hn]].
  by exists (rstrip "/"%char (base_url request)),
            (ts_create_access_token ts {[ "sub" := email u ]} (clock w)), n.
Qed.

(** X5: password reset and email confirmation accept the same tokens,
    but for the empty email: [reset_password] succeeds exactly when
    [confirmed_email] succeeds and the email read from the token is not
    empty. *)
Theorem reset_password_accepts_iff (token : string) (body : ResetPassword) (w : World) :
  is_return (reset_password hs ts token body w).1 = true ↔
  is_return (confirmed_email ts token w).1 = true ∧
  ∃ s, ts_get_email_from_token ts token (clock w) = Some s ∧ s ≠ "".
Proof.
  rewrite reset_password_run, confirmed_email_run. proj.
  destruct (ts_get_email_from_token ts token (clock w)) as [s|]; cbn [truthy].
  - case_bool_decide as Hs; cbn [negb]; proj.
    + subst s. split; [done|]. by intros [_ (s & [= <-] & ?)].
    + destruct (find_by_email _ _) as [user|]; proj.
      * split; [|done]. intros _. split; [by destruct (is_verified user)|by exists s].
      * split; [done|]. by intros [? _].
  - proj. split; [done|]. by intros [_ (s & [=] & _)].
Qed.

(** X6: the password reset flow end to end.  When the token service
    reads back, at the time of the reset, the email from the token it
    minted at the time of the request, the token that
    [forgot_password_request] hands to the reset email is accepted by
    [reset_password], which stores the hash of the new password in the
    record of that user. *)
Theorem forgot_then_reset (body : RequestEmail) (request : Request) (nb : ResetPassword)
    (w : World) (u : User) (later : Z) :
  find_by_email (Some (re_email body)) (users w) = Some u →
  is_verified u = true →
  re_email body ≠ "" →
  let token := ts_create_access_token ts {[ "sub" := email u ]} (clock w) in
  ts_get_email_from_token ts token later = Some (email u) →
  let r1 := forgot_password_request ts body request w in
  let r2 := reset_password hs ts token nb (at_clock later r1.2) in
  tasks r1.2 = tasks w ++ [send_reset_password_email (email u) (username u)
                             (rstrip "/"%char (base_url request)) token] ∧
  r2.1 = Return (Message "Password successfully changed") ∧
  find_by_email (Some (email u)) (users r2.2) =
    Some (set_hashed_password (hash_get_password_hash hs (new_password nb)) u).
Proof.
  intros Hu Hv Hne token Htoken. proj.
  pose proof (find_by_email_Some _ _ _ Hu) as [[= Hemail] _].
  rewrite forgot_password_request_run. proj. rewrite Hu, Hv. proj.
  split; [done|].
  rewrite reset_password_run. proj. cbn [clock users at_clock set_tasks log set_trace].
  fold token. rewrite Htoken. cbn [truthy].
  rewrite bool_decide_false by congruence. cbn [negb].
  rewrite <- Hemail, Hu. proj. split; [done|].
  cbn [users set_users log set_trace at_clock set_tasks].
  rewrite find_by_email_fmap by apply with_password_email.
  rewrite Hu. cbn. unfold with_password, set_hashed_password.
  by rewrite bool_decide_true.
Qed.

(** X7: after a password reset the new password logs in.  When the
    hasher verifies the new password against its own hash, a login of the
    verified user with the new password succeeds in the world that
    [reset_password] leaves. *)
Theorem reset_then_login (token : string) (nb : ResetPassword) (w : World) (u : User) :
  ts_get_email_from_token ts token (clock w) = Some (email u) →
  email u ≠ "" →
  find_by_email (Some (email u)) (users w) = Some u →
  is_verified u = true →
  hash_verify_password hs (new_password nb)
    (hash_get_password_hash hs (new_password nb)) = true →
  let r := reset_password hs ts token nb w in
  (login_user hs ts (mkUserLogin (email u) (new_password nb)) r.2).1 =
    Return (TokenBody (ts_create_access_token ts {[ "sub" := username u ]} (clock w))
              "bearer").
Proof.
  intros Htoken Hne Hu Hv Hpw. proj.
  rewrite reset_password_run. proj. rewrite Htoken. cbn [truthy].
  rewrite bool_decide_false by done. cbn [negb]. rewrite Hu. proj.
  rewrite login_user_run. proj. cbn [ul_email ul_password users clock set_users log set_trace].
  rewrite find_by_email_fmap by apply with_password_email.
  rewrite Hu. cbn [fmap option_fmap option_map]. unfold with_password.
  rewrite bool_decide_true by done. cbn [is_verified hashed_password username].
  by rewrite Hv, Hpw.
Qed.


(** X9: the routers of [/auth] read nothing of the cache.  Run with any
    other cache, connected or not, each handler gives the same outcome,
    the same user table and the same background tasks; all but login
    leave the cache as it was. *)
Theorem auth_routers_read_no_cache (c : RedisCache) (w : World) :
  (∀ body, reads_no_cache (login_user hs ts body) c w) ∧
  (∀ user_data request, ignores_cache (register_user hs user_data request) c w) ∧
  (∀ token, ignores_cache (confirmed_email ts token) c w) ∧
  (∀ body request, ignores_cache (request_email body request) c w) ∧
  (∀ body request, ignores_cache (forgot_password_request ts body request) c w) ∧
  (∀ token body, ignores_cache (reset_password hs ts token body) c w).
Proof.
  unfold ignores_cache, reads_no_cache. split_and!; intros.
  - rewrite !login_user_run. proj. cbn [users clock cache with_cache set_cache].
    destruct (find_by_email _ _) as [user|]; [|done].
    destruct (is_verified user); cbn [negb]; [|done].
    destruct (hash_verify_password _ _ _); cbn [negb]; [|done].
    by destruct (redis c), (redis (cache w)).
  - rewrite !register_user_run. proj. cbn [users with_cache set_cache].
    destruct (find_by_email _ _); [done|]. by destruct (find_by_username _ _).
  - rewrite !confirmed_email_run. proj. cbn [users clock with_cache set_cache].
    destruct (find_by_email _ _) as [user|]; [|done]. by destruct (is_verified user).
  - rewrite !request_email_run. proj. cbn [users with_cache set_cache].
    destruct (find_by_email _ _) as [user|]; [|done]. by destruct (is_verified user).
  - rewrite !forgot_password_request_run. proj. cbn [users clock with_cache set_cache].
    destruct (find_by_email _ _) as [user|]; [|done]. by destruct (is_verified user).
  - rewrite !reset_password_run. proj. cbn [users clock with_cache set_cache].
    destruct (truthy _); [|done]. by destruct (find_by_email _ _).
Qed.

(** X10: the avatar update of an administrator.  When the upload fails,
    its exception leaves the handler as it is (status 500), after the
    upload call alone: the repository is not called and nothing changes.
    When the upload succeeds, the image is stored under the public id
    made of the caller's username, its URL is built 250 by 250 with the
    crop [fill] and the version of the upload, the URL is stored as the
    avatar of the caller's record and the public view of that record is
    returned. *)
Theorem update_avatar_user_admin (file : string) (current_user : User) (w : World) :
  role current_user = RoleAdmin →
  let r := update_avatar_user cld file current_user w in
  let public_id := "RestApp/" +:+ username current_user in
  (∀ msg, uploader_upload cld file public_id = UploadError msg →
     r.1 = Raise (Exception msg) ∧ status_of HTTP_200_OK r.1 = 500 ∧
     same_state w r.2 ∧ calls_since w r.2 = [EvUpload public_id]) ∧
  (∀ version u, uploader_upload cld file public_id = Uploaded version →
     find_by_email (Some (email current_user)) (users w) = Some u →
     let url := build_url cld public_id 250 250 "fill" version in
     r.1 = Return (UserBody (public_view (set_avatar url u))) ∧
     find_by_email (Some (email current_user)) (users r.2) = Some (set_avatar url u) ∧
     calls_since w r.2 = [EvUpload public_id; EvUpdateAvatarUrl (email current_user) url] ∧
     cache r.2 = cache w ∧ tasks r.2 = tasks w).
Proof.
  intros Hrole. proj. rewrite update_avatar_user_run. proj.
  rewrite bool_decide_true by done.
  destruct (uploader_upload _ _ _) as [version|msg]; proj.
  - split; [done|]. intros ? u [= <-] Hu.
    pose proof (find_by_email_Some _ _ _ Hu) as [[= Hemail] _].
    set (url := build_url cld ("RestApp/" +:+ username current_user) 250 250 "fill" version).
    assert (Hfind : find_by_email (Some (email current_user))
                      (with_avatar (email current_user) url <$> users w)
                    = Some (set_avatar url u)).
    { rewrite find_by_email_fmap by apply with_avatar_email.
      rewrite Hu. cbn. unfold with_avatar, set_avatar. by rewrite bool_decide_true. }
    cbn [users set_users log set_trace]. rewrite Hfind. proj.
    split_and!; try done. by apply calls_since_trace.
  - split; [|done]. intros ? [= <-].
    split_and!; [done|done|apply same_state_log|apply calls_since_log].
Qed.

End MoreProperties.

(** * The properties on concrete requests *)

(** C1, counterexample: the token that [forgot_password_request] mints
    for alice, a password-reset token, is accepted by [confirmed_email],
    where an email-verification token is expected: validation does not
    fail. *)
Lemma reset_token_consumed_as_email_verify :
  tasks (forgot_password_request sample_tokens (mkRequestEmail "alice@example.com")
           sample_request sample_world).2 =
    [send_reset_password_email "alice@example.com" "alice" "http://testserver"
       alice_reset_token] ∧
  (reset_password sample_hasher sample_tokens alice_reset_token (mkResetPassword "pw456")
     sample_world).1 = Return (Message "Password successfully changed") ∧
  (confirmed_email sample_tokens alice_reset_token sample_world).1 =
    Return (Message "Your email is already verified.") ∧
  ¬ (is_return (confirmed_email sample_tokens alice_reset_token sample_world).1 = false).
Proof. split_and!; [by vm_compute|by vm_compute|by vm_compute|]. vm_compute. discriminate. Qed.

(** C1, on a concrete request: alice's reset token is accepted by
    [reset_password], hence by [confirmed_email]. *)
Lemma reset_token_accepted_by_confirmed_email_witness :
  status_of HTTP_200_OK
    (reset_password sample_hasher sample_tokens alice_reset_token
       (mkResetPassword "pw456") sample_world).1 = 200 ∧
  status_of HTTP_200_OK (confirmed_email sample_tokens alice_reset_token sample_world).1 = 200.
Proof.
  split.
  - vm_compute. reflexivity.
  - apply (reset_token_accepted_by_confirmed_email sample_hasher sample_tokens
             alice_reset_token (mkResetPassword "pw456") sample_world).
    vm_compute. reflexivity.
Defined.

(** An access token replayed as a reset token: mallory, whose username is
    spelled like alice's email, logs in; the access token she is given
    sets a new password on alice's record. *)
Example access_token_resets_another_password :
  (login_user sample_hasher sample_tokens (mkUserLogin "mallory@example.com" "m")
     crowded_world).1 = Return (TokenBody alice_reset_token "bearer") ∧
  let r := reset_password sample_hasher sample_tokens alice_reset_token
             (mkResetPassword "owned") crowded_world in
  r.1 = Return (Message "Password successfully changed") ∧
  hashed_password <$> find_by_email (Some "alice@example.com") (users r.2) =
    Some "$hashed$owned".
Proof. by vm_compute. Qed.

(** C2, counterexample: a login with an email that no user has is
    answered with status 404, which is neither 200 nor 401. *)
Lemma login_unknown_email_is_404 :
  let s := status_of HTTP_200_OK
             (login_user sample_hasher sample_tokens
                (mkUserLogin "nobody@example.com" "pw123") sample_world).1 in
  s = 404 ∧ ¬ (s = 200 ∨ s = 401).
Proof. vm_compute. split; [done|]. by intros [|]. Qed.

(** C8, on a concrete request: alice logs in and her projection is
    cached. *)
Lemma login_user_populates_cache_witness :
  let r := login_user sample_hasher sample_tokens (mkUserLogin "alice@example.com" "pw123")
             sample_world in
  r.1 = Return (TokenBody "4600.3920659751.alice" "bearer") ∧
  entries (cache r.2) !! "user:alice" =
    Some (mkUserCacheModel 1 "alice" "alice@example.com" true RoleUser, 3600).
Proof.
  pose proof (login_user_populates_cache sample_hasher sample_tokens
                (mkUserLogin "alice@example.com" "pw123") sample_world alice
                eq_refl eq_refl eq_refl) as (Htoken & Hcache & _).
  split.
  - exact Htoken.
  - exact (proj1 (Hcache eq_refl)).
Defined.

(** The scenario of the specification: alice registers, cannot log in
    before she has confirmed her email, confirms it, logs in and finds her
    projection in the cache; a wrong password afterwards is rejected and
    leaves the cache as it was. *)
Example scenario_register :
  (register_user sample_hasher (mkUserCreate "alice" "alice@example.com" "pw123")
     sample_request empty_world).1 =
    Return (UserBody (mkPublicUser 1 "alice" "alice@example.com" None RoleUser)) ∧
  users after_register =
    [mkUser 1 "alice" "alice@example.com" "$hashed$pw123" None false RoleUser] ∧
  tasks after_register = [send_email "alice@example.com" "alice" "http://testserver/"].
Proof. by vm_compute. Qed.

Example scenario_register_twice :
  status_of HTTP_201_CREATED
    (register_user sample_hasher (mkUserCreate "alice2" "alice@example.com" "x")
       sample_request after_register).1 = 409 ∧
  status_of HTTP_201_CREATED
    (register_user sample_hasher (mkUserCreate "alice" "other@example.com" "x")
       sample_request after_register).1 = 409.
Proof. by vm_compute. Qed.

Example scenario_login_unverified :
  (login_user sample_hasher sample_tokens (mkUserLogin "alice@example.com" "pw123")
     after_register).1 = Raise (HTTPException 401 "Email is not verified." []).
Proof. by vm_compute. Qed.

Example scenario_confirm :
  (confirmed_email sample_tokens alice_verify_token after_register).1 =
    Return (Message "Email successfully verified.") ∧
  is_verified <$> find_by_email (Some "alice@example.com") (users after_confirm) = Some true ∧
  (confirmed_email sample_tokens alice_verify_token after_confirm).1 =
    Return (Message "Your email is already verified.").
Proof. by vm_compute. Qed.

Example scenario_login :
  (login_user sample_hasher sample_tokens (mkUserLogin "alice@example.com" "pw123")
     after_confirm).1 = Return (TokenBody "4600.3920659751.alice" "bearer") ∧
  entries (cache after_login) !! "user:alice" =
    Some (mkUserCacheModel 1 "alice" "alice@example.com" true RoleUser, 3600).
Proof. by vm_compute. Qed.

Example scenario_wrong_password :
  let r := login_user sample_hasher sample_tokens (mkUserLogin "alice@example.com" "guess")
             after_login in
  r.1 = Raise (HTTPException 401 "Invalid email or password."
                 [("WWW-Authenticate", "Bearer")]) ∧
  cache r.2 = cache after_login.
Proof. by vm_compute. Qed.

(** Password reset on concrete requests: bob, who is not verified, is
    turned away; an expired or forged token is answered with 400 and
    leaves the password as it was. *)
Example forgot_password_unverified :
  let r := forgot_password_request sample_tokens (mkRequestEmail "bob@example.com")
             sample_request sample_world in
  r.1 = Raise (HTTPException 400 "Email is not verified" []) ∧
  tasks r.2 = [] ∧ trace r.2 = [EvGetUserByEmail (Some "bob@example.com")].
Proof. by vm_compute. Qed.

Example reset_password_expired :
  let late := mkWorld [alice; bob] (mkRedisCache true ∅) [] 4600 [] in
  let r := reset_password sample_hasher sample_tokens alice_reset_token
             (mkResetPassword "pw456") late in
  r.1 = Raise (HTTPException 400 "Invalid or expired token" []) ∧ users r.2 = [alice; bob].
Proof. by vm_compute. Qed.

Example reset_password_forged :
  (reset_password sample_hasher sample_tokens "4600.1.alice@example.com"
     (mkResetPassword "pw456") sample_world).1 =
    Raise (HTTPException 400 "Invalid or expired token" []).
Proof. by vm_compute. Qed.

(** The avatar update on concrete requests: alice, a standard user, is
    turned away before anything is uploaded; an administrator updates her
    own record. *)
Example update_avatar_standard_user :
  let r := update_avatar_user sample_cloudinary "png" alice sample_world in
  is_return r.1 = false ∧ r.2 = sample_world.
Proof. by vm_compute. Qed.

Example update_avatar_admin :
  let w := mkWorld [alice; root] (mkRedisCache true ∅) [] 1000 [] in
  let r := update_avatar_user sample_cloudinary "png" root w in
  is_return r.1 = true ∧
  trace r.2 = [EvUpload "RestApp/root";
               EvUpdateAvatarUrl "root@example.com"
                 "https://res.cloudinary.com/c_fill,h_250,w_250/v7/RestApp/root"] ∧
  users r.2 !! 0%nat = Some alice.
Proof. by vm_compute. Qed.

(** ** The further properties on concrete requests *)

(** X4, on a concrete request: the reset email for alice is given the
    base URL of the request without its trailing slash. *)
Lemma forgot_password_strips_base_url_witness :
  ∃ b token n,
    tasks (forgot_password_request sample_tokens (mkRequestEmail "alice@example.com")
             sample_request sample_world).2 =
      tasks sample_world ++ [send_reset_password_email (email alice) (username alice) b token] ∧
    base_url sample_request = b +:+ repeat_char n "/"%char ∧
    last_char b ≠ Some "/"%char.
Proof.
  apply (forgot_password_strips_base_url sample_tokens (mkRequestEmail "alice@example.com")
           sample_request sample_world alice).
  - vm_compute. reflexivity.
  - reflexivity.
Defined.

(** X6, on a concrete request: alice asks for a reset at time 1000 and
    sets a new password at time 2000 with the token she was sent. *)
Lemma forgot_then_reset_witness :
  let r1 := forgot_password_request sample_tokens (mkRequestEmail "alice@example.com")
              sample_request sample_world in
  let r2 := reset_password sample_hasher sample_tokens alice_reset_token
              (mkResetPassword "pw456") (at_clock 2000 r1.2) in
  r2.1 = Return (Message "Password successfully changed") ∧
  find_by_email (Some "alice@example.com") (users r2.2) =
    Some (set_hashed_password "$hashed$pw456" alice).
Proof.
  pose proof (forgot_then_reset sample_hasher sample_tokens
                (mkRequestEmail "alice@example.com") sample_request
                (mkResetPassword "pw456") sample_world alice 2000) as H.
  apply H.
  - vm_compute. reflexivity.
  - reflexivity.
  - vm_compute. discriminate.
  - vm_compute. reflexivity.
Defined.

(** X7, on a concrete request: after the reset, alice logs in with the
    new password. *)
Lemma reset_then_login_witness :
  (login_user sample_hasher sample_tokens (mkUserLogin "alice@example.com" "pw456")
     (reset_password sample_hasher sample_tokens alice_reset_token
        (mkResetPassword "pw456") sample_world).2).1 =
    Return (TokenBody "4600.3920659751.alice" "bearer").
Proof.
  apply (reset_then_login sample_hasher sample_tokens alice_reset_token
           (mkResetPassword "pw456") sample_world alice).
  - vm_compute. reflexivity.
  - vm_compute. discriminate.
  - vm_compute. reflexivity.
  - reflexivity.
  - vm_compute. reflexivity.
Defined.

(** X10, on a concrete request: the administrator root uploads an
    avatar, and one whose upload fails. *)
Lemma update_avatar_user_admin_witness :
  let w := mkWorld [alice; root] (mkRedisCache true ∅) [] 1000 [] in
  let url := "https://res.cloudinary.com/c_fill,h_250,w_250/v7/RestApp/root" in
  (update_avatar_user sample_cloudinary "png" root w).1 =
    Return (UserBody (mkPublicUser 9 "root" "root@example.com" (Some url) RoleAdmin)) ∧
  (update_avatar_user sample_cloudinary "" root w).1 = Raise (Exception "Empty file") ∧
  users (update_avatar_user sample_cloudinary "" root w).2 = [alice; root].
Proof.
  pose proof (update_avatar_user_admin sample_cloudinary "png" root
                (mkWorld [alice; root] (mkRedisCache true ∅) [] 1000 []) eq_refl)
    as [_ Hok].
  pose proof (update_avatar_user_admin sample_cloudinary "" root
                (mkWorld [alice; root] (mkRedisCache true ∅) [] 1000 []) eq_refl)
    as [Hfail _].
  split_and!.
  - exact (proj1 (Hok (Some 7) root eq_refl eq_refl)).
  - exact (proj1 (Hfail "Empty file" eq_refl)).
  - exact (proj1 (proj1 (proj2 (proj2 (Hfail "Empty file" eq_refl))))).
Defined.

(** The empty email, where X5 draws the line: a token whose subject is
    empty is accepted by [confirmed_email] when a record has the empty
    email, and answered with 400 by [reset_password]. *)
Example empty_email_claim :
  let nobody := mkUser 4 "nobody" "" "$hashed$n" None true RoleUser in
  let w := mkWorld [nobody] (mkRedisCache true ∅) [] 1000 [] in
  let token := ts_create_access_token sample_tokens {[ "sub" := "" ]} 1000 in
  (confirmed_email sample_tokens token w).1 =
    Return (Message "Your email is already verified.") ∧
  (reset_password sample_hasher sample_tokens token (mkResetPassword "x") w).1 =
    Raise (HTTPException 400 "Invalid or expired token" []).
Proof. by vm_compute. Qed.

(** Two slashes at the end of the base URL are both removed. *)
Example forgot_password_two_slashes :
  tasks (forgot_password_request sample_tokens (mkRequestEmail "alice@example.com")
           (mkRequest "http://testserver//") sample_world).2 =
    [send_reset_password_email "alice@example.com" "alice" "http://testserver"
       alice_reset_token].
Proof. by vm_compute. Qed.
